(** * AsyncResultDO: the store / poll / acknowledge / auto-cleanup actor

    A shallow embedding of the [AsyncResultDO] Durable Object class and
    of the part of its host (key-value storage, the single alarm, the
    wall clock, promises) that its methods call into, followed by the
    properties of its lifecycle. *)

From Stdlib Require Import ZArith NArith String Ascii List Lia.
From Stdlib Require Import FloatClass PrimFloat.
From stdpp Require Import gmap strings.
Import ListNotations.

Local Open Scope string_scope.
Local Open Scope Z_scope.

(** ** JavaScript values *)

(** What [request.json()] can produce and what the storage holds:
    JSON values.  Numbers are IEEE doubles, as in JavaScript. *)
#[warnings="-register-all"]
Inductive json : Type :=
| JNull
| JBool (b : bool)
| JNumber (x : float)
| JString (s : string)
| JArray (items : list json)
| JObject (fields : list (string * json)).

(** A JavaScript expression of storage type: [None] is [undefined]. *)
Abbreviation jsval := (option json).

(** [v === "lit"]: strict equality against a string literal holds only
    for a string primitive with the same characters. *)
Definition strict_eq_string (v : jsval) (lit : string) : bool :=
  match v with
  | Some (JString s) => String.eqb s lit
  | _ => false
  end.

(** An object literal as [JSON.stringify] sees it: a property whose
    value is [undefined] is left out. *)
Fixpoint js_object (props : list (string * jsval)) : list (string * json) :=
  match props with
  | [] => []
  | (k, Some v) :: rest => (k, v) :: js_object rest
  | (_, None) :: rest => js_object rest
  end.

(** [JSON.stringify(v)], held as the value that the written text
    denotes to whoever parses it: a number that is not finite is written
    [null], negative zero is written [0], and arrays and objects are
    written member by member. *)
Definition stringify_number (x : float) : json :=
  match classify x with
  | PInf | NInf | NaN => JNull
  | NZero => JNumber zero
  | _ => JNumber x
  end.

Fixpoint JSON_stringify (v : json) : json :=
  match v with
  | JNumber x => stringify_number x
  | JArray items => JArray (map JSON_stringify items)
  | JObject fields =>
      JObject (map (fun f => let '(k, m) := f in (k, JSON_stringify m)) fields)
  | _ => v
  end.

(** No number inside [v] is infinite, NaN or negative zero. *)
Fixpoint json_plain (v : json) : bool :=
  match v with
  | JNumber x =>
      match classify x with
      | PInf | NInf | NaN | NZero => false
      | _ => true
      end
  | JArray items => forallb json_plain items
  | JObject fields => forallb (fun f => let '(_, m) := f in json_plain m) fields
  | _ => true
  end.

(** A payload that JSON can carry: serialising it gives it back. *)
Definition json_serializable (v : json) : Prop := JSON_stringify v = v.

(** ** Date.prototype.toISOString *)

Module ISO.

Definition digit (d : Z) : ascii := ascii_of_nat (48 + Z.to_nat (d mod 10)).

(** The [width] low decimal digits of [n], most significant first. *)
Fixpoint pad (width : nat) (n : Z) (acc : string) : string :=
  match width with
  | O => acc
  | S w => pad w (n / 10) (String (digit n) acc)
  end.

(** Civil date of a day number counted from 1970-01-01 (proleptic
    Gregorian calendar). *)
Definition civil (days : Z) : Z * Z * Z :=
  let z := days + 719468 in
  let era := z / 146097 in
  let doe := z mod 146097 in
  let yoe := (doe - doe / 1460 + doe / 36524 - doe / 146096) / 365 in
  let doy := doe - (365 * yoe + yoe / 4 - yoe / 100) in
  let mp := (5 * doy + 2) / 153 in
  let d := doy - (153 * mp + 2) / 5 + 1 in
  let m := if mp <? 10 then mp + 3 else mp - 9 in
  let y := yoe + era * 400 + (if m <=? 2 then 1 else 0) in
  (y, m, d).

Definition year (y : Z) : string :=
  if (0 <=? y) && (y <=? 9999) then pad 4 y ""
  else String (if y <? 0 then "-"%char else "+"%char) (pad 6 (Z.abs y) "").

Definition toISOString (ms : Z) : string :=
  let '(y, m, d) := civil (ms / 86400000) in
  let t := ms mod 86400000 in
  year y ++ "-" ++ pad 2 m "" ++ "-" ++ pad 2 d "" ++ "T"
    ++ pad 2 (t / 3600000) "" ++ ":" ++ pad 2 (t / 60000 mod 60) "" ++ ":"
    ++ pad 2 (t / 1000 mod 60) "" ++ "." ++ pad 3 (t mod 1000) "" ++ "Z".

End ISO.

(** ** The host: storage, alarm, clock, console *)

Inductive Error : Type :=
| SyntaxError      (* request.json() on a body that is not JSON *)
| StorageError     (* a storage read or write that fails *)
| AlarmError.      (* setAlarm that fails *)

Definition error_name (e : Error) : string :=
  match e with
  | SyntaxError => "SyntaxError"
  | StorageError => "StorageError"
  | AlarmError => "AlarmError"
  end.

(** The state of one actor instance together with the behaviour of its
    host.  [ticks] are the non-negative amounts by which the wall clock
    moves on before each reading; [storage_faults] / [alarm_faults] say,
    call by call, whether the next storage / [setAlarm] call fails
    ([true]); a list that has run out means no delay and no failure. *)
Record World : Type := mkWorld {
  kv : gmap string json;          (* ctx.storage: the key-value store *)
  pending_alarm : option Z;       (* the single alarm, ms since epoch *)
  console : list string;          (* console.log / console.error lines *)
  clock : Z;                      (* wall clock, ms since epoch *)
  ticks : list N;
  storage_faults : list bool;
  alarm_faults : list bool;
}.

Definition with_kv (m : gmap string json) (w : World) : World :=
  mkWorld m (pending_alarm w) (console w) (clock w) (ticks w)
          (storage_faults w) (alarm_faults w).

Definition with_alarm (a : option Z) (w : World) : World :=
  mkWorld (kv w) a (console w) (clock w) (ticks w)
          (storage_faults w) (alarm_faults w).

Definition with_console (c : list string) (w : World) : World :=
  mkWorld (kv w) (pending_alarm w) c (clock w) (ticks w)
          (storage_faults w) (alarm_faults w).

Definition with_time (t : Z) (ts : list N) (w : World) : World :=
  mkWorld (kv w) (pending_alarm w) (console w) t ts
          (storage_faults w) (alarm_faults w).

Definition with_storage_faults (fs : list bool) (w : World) : World :=
  mkWorld (kv w) (pending_alarm w) (console w) (clock w) (ticks w)
          fs (alarm_faults w).

Definition with_alarm_faults (fs : list bool) (w : World) : World :=
  mkWorld (kv w) (pending_alarm w) (console w) (clock w) (ticks w)
          (storage_faults w) fs.

(** ** Promises *)

Inductive Settled (A : Type) : Type :=
| Fulfilled (a : A)
| Rejected (e : Error).
Arguments Fulfilled {A} a.
Arguments Rejected {A} e.

(** A promise run to settlement.  One actor instance handles its events
    one after the other, so a promise is a function of the world. *)
Definition Promise (A : Type) : Type := World -> Settled A * World.

Definition resolve {A} (a : A) : Promise A := fun w => (Fulfilled a, w).
Definition reject {A} (e : Error) : Promise A := fun w => (Rejected e, w).

(** [const x = await p; k x]: a rejection of [p] is thrown at the
    [await] and ends the rest of the body. *)
Definition await {A B} (p : Promise A) (k : A -> Promise B) : Promise B :=
  fun w =>
    match p w with
    | (Fulfilled a, w') => k a w'
    | (Rejected e, w') => (Rejected e, w')
    end.

(** [try { await p } catch (e) { handler }]. *)
Definition try_await {A} (p : Promise A) (handler : Error -> Promise A)
  : Promise A :=
  fun w =>
    match p w with
    | (Fulfilled a, w') => (Fulfilled a, w')
    | (Rejected e, w') => handler e w'
    end.

Declare Scope promise_scope.
Delimit Scope promise_scope with promise.
Notation "x <- p ;; k" := (await p (fun x => k))
  (at level 100, p at next level, right associativity) : promise_scope.
Notation "p ;;; k" := (await p (fun _ => k))
  (at level 100, right associativity) : promise_scope.
Local Open Scope promise_scope.

(** Synchronous completion of a statement inside a [try] block. *)
Inductive Completion (A : Type) : Type :=
| Return (a : A)
| Throw (e : Error).
Arguments Return {A} a.
Arguments Throw {A} e.

(** Calling an [async] method: the call itself completes normally with
    the method's promise; whatever fails inside the method rejects that
    promise and is not thrown at the call. *)
Definition call_async {A} (method : Promise A) : Completion (Promise A) :=
  Return method.

(** [try { block } catch (error) { handler }] around a block that is
    left by [return] or by a synchronous throw. *)
Definition try_catch {A} (block : Completion A) (handler : Error -> Completion A)
  : Completion A :=
  match block with
  | Return a => Return a
  | Throw e => handler e
  end.

(** The promise of an [async] function whose body completes with [c]:
    returning a promise resolves the function's promise with it (it
    takes over that promise's settlement), a throw rejects it. *)
Definition async_result {A} (c : Completion (Promise A)) : Promise A :=
  match c with
  | Return p => p
  | Throw e => reject e
  end.

(** ** Host calls *)

Definition pop_fault (fs : list bool) : bool * list bool :=
  match fs with
  | [] => (false, [])
  | f :: rest => (f, rest)
  end.

(** One storage call: fails, leaving the store as it was, when the host
    says so; otherwise runs [op] on the key-value store. *)
Definition storage_call {A} (op : gmap string json -> A * gmap string json)
  : Promise A :=
  fun w =>
    let '(fails, rest) := pop_fault (storage_faults w) in
    let w' := with_storage_faults rest w in
    if fails then (Rejected StorageError, w')
    else let '(a, m) := op (kv w') in (Fulfilled a, with_kv m w').

(** [storage.get(key)] *)
Definition storage_get (key : string) : Promise jsval :=
  storage_call (fun m => (m !! key, m)).

(** [storage.put(key, value)] *)
Definition storage_put (key : string) (value : json) : Promise unit :=
  storage_call (fun m => (tt, <[key := value]> m)).

(** [storage.put({ k1: v1, ... })] *)
Definition storage_put_entries (entries : list (string * json)) : Promise unit :=
  storage_call (fun m =>
    (tt, fold_left (fun acc e => <[fst e := snd e]> acc) entries m)).

(** [storage.delete([k1, ...])]; the count it resolves to is not used
    by any caller. *)
Definition storage_delete (keys : list string) : Promise unit :=
  storage_call (fun m => (tt, fold_left (fun acc k => delete k acc) keys m)).

(** [storage.deleteAll()] *)
Definition storage_deleteAll : Promise unit :=
  storage_call (fun _ => (tt, ∅)).

(** [ctx.storage.setAlarm(time)]: replaces the pending alarm. *)
Definition setAlarm (time : Z) : Promise unit :=
  fun w =>
    let '(fails, rest) := pop_fault (alarm_faults w) in
    let w' := with_alarm_faults rest w in
    if fails then (Rejected AlarmError, w')
    else (Fulfilled tt, with_alarm (Some time) w').

(** Reading the wall clock ([Date.now()], [new Date()]). *)
Definition Date_now : Promise Z :=
  fun w =>
    match ticks w with
    | [] => (Fulfilled (clock w), w)
    | d :: rest =>
        let t := clock w + Z.of_N d in
        (Fulfilled t, with_time t rest w)
    end.

Definition console_write (line : string) : Promise unit :=
  fun w => (Fulfilled tt, with_console (console w ++ [line]) w).

(** ** Requests and responses *)

Inductive RequestBody : Type :=
| JsonText (value : json)     (* a body that parses to [value] *)
| NotJson.                    (* empty or malformed body *)

Record Request : Type := mkRequest {
  method : string;
  body : RequestBody;
}.

(** [request.json()] *)
Definition request_json (request : Request) : Promise json :=
  match body request with
  | JsonText v => resolve v
  | NotJson => reject SyntaxError
  end.

Inductive ResponseBody : Type :=
| Text (s : string)
| Json (v : json).

Record Response : Type := mkResponse {
  resp_body : ResponseBody;
  resp_status : Z;
}.

(** [new Response(text, { status })] *)
Definition new_Response (text : string) (status : Z) : Response :=
  mkResponse (Text text) status.

(** [Response.json(value, { status })]: the body is the object as
    [JSON.stringify] writes it; the status defaults to 200. *)
Definition Response_json (props : list (string * jsval)) (status : option Z)
  : Response :=
  mkResponse (Json (JSON_stringify (JObject (js_object props))))
             (default 200 status).

(** ** The class *)

Module AsyncResultDO.

(** Store result data (called by queue consumer). *)
Definition store (request : Request) : Promise Response :=
  data <- request_json request ;;
  now <- Date_now ;;
  storage_put_entries
    [ ("result", data);
      ("status", JString "ready");
      ("storedAt", JString (ISO.toISOString now)) ] ;;;
  try_await
    (t <- Date_now ;; setAlarm (t + 24 * 60 * 60 * 1000))
    (fun _ => resolve tt) ;;;
  resolve (new_Response "stored" 201).

(** Retrieve result (polled by client). *)
Definition retrieve : Promise Response :=
  status <- storage_get "status" ;;
  if strict_eq_string status "deleted" then
    resolve (Response_json [("message", Some (JString "Result deleted"))]
                           (Some 404))
  else if negb (strict_eq_string status "ready") then
    resolve (Response_json [("status", Some (JString "pending"))] (Some 202))
  else
    result <- storage_get "result" ;;
    storedAt <- storage_get "storedAt" ;;
    resolve (Response_json [ ("status", Some (JString "ready"));
                             ("result", result);
                             ("storedAt", storedAt) ] None).

(** Client acknowledges receipt: tombstone pattern. *)
Definition acknowledge : Promise Response :=
  storage_put "status" (JString "deleted") ;;;
  storage_delete ["result"; "storedAt"] ;;;
  try_await
    (t <- Date_now ;; setAlarm (t + 60 * 60 * 1000))
    (fun _ => resolve tt) ;;;
  resolve (new_Response "deleted" 200).

(** The request boundary.  Each case of the switch returns the promise
    of the method it calls as it is, with no [await] on it, so the
    [try] block covers the call and not the method's outcome. *)
Definition fetch (request : Request) : Promise Response :=
  let method := method request in
  async_result
    (try_catch
       (if String.eqb method "PUT" then call_async (store request)
        else if String.eqb method "GET" then call_async retrieve
        else if String.eqb method "DELETE" then call_async acknowledge
        else Return (resolve (new_Response "Method not allowed" 405)))
       (fun error =>
          Return
            (console_write ("[AsyncResultDO] Error: " ++ error_name error) ;;;
             resolve (new_Response "Internal error" 500)))).

(** Alarm handler: auto-cleanup orphaned or tombstoned data. *)
Definition alarm : Promise unit :=
  console_write "[AsyncResultDO] Alarm: cleaning up" ;;;
  storage_deleteAll.

End AsyncResultDO.

(** ** Events of one actor instance *)

Definition put_request (b : RequestBody) : Request := mkRequest "PUT" b.
Definition get_request : Request := mkRequest "GET" NotJson.
Definition delete_request : Request := mkRequest "DELETE" NotJson.

(** The storage answers every call. *)
Definition healthy (w : World) : Prop := storage_faults w = [].

(** The host delivering the alarm: the pending alarm is consumed and
    the handler runs.  When the host does so is left open, so what is
    proved of runs below holds for every schedule. *)
Definition timer_fire : Promise unit :=
  fun w => AsyncResultDO.alarm (with_alarm None w).

Inductive Event : Type :=
| EvStore (b : RequestBody)     (* PUT from the producer *)
| EvPoll                        (* GET from a client *)
| EvAcknowledge                 (* DELETE from a client *)
| EvTimer.                      (* the alarm goes off *)

Definition deliver (e : Event) (w : World) : World :=
  match e with
  | EvStore b => snd (AsyncResultDO.fetch (put_request b) w)
  | EvPoll => snd (AsyncResultDO.fetch get_request w)
  | EvAcknowledge => snd (AsyncResultDO.fetch delete_request w)
  | EvTimer => snd (timer_fire w)
  end.

Definition run (es : list Event) (w : World) : World :=
  fold_left (fun acc e => deliver e acc) es w.

Definition is_store (e : Event) : bool :=
  match e with EvStore _ => true | _ => false end.

Definition is_timer (e : Event) : bool :=
  match e with EvTimer => true | _ => false end.

(** Whether an acknowledge was delivered after the last alarm of [es]
    (after the start, when no alarm went off); [acked] is the answer
    for the events before [es]. *)
Definition acked_since_purge (acked : bool) (es : list Event) : bool :=
  fold_left
    (fun a e =>
       match e with
       | EvAcknowledge => true
       | EvTimer => false
       | _ => a
       end)
    es acked.

(** A newly addressed key: nothing stored, no alarm. *)
Definition fresh_world (now : Z) : World := mkWorld ∅ None [] now [] [] [].

(** The three answers of a poll. *)
Definition pending_response : Response :=
  mkResponse (Json (JObject [("status", JString "pending")])) 202.

Definition not_found_response : Response :=
  mkResponse (Json (JObject [("message", JString "Result deleted")])) 404.

Definition ready_response (result : json) (storedAt : string) : Response :=
  mkResponse
    (Json (JObject [ ("status", JString "ready");
                     ("result", result);
                     ("storedAt", JString storedAt) ]))
    200.

(** The record as the data model names it. *)
Inductive Status : Type := absent | ready | deleted.

Definition status_of (w : World) : Status :=
  if strict_eq_string (kv w !! "status") "deleted" then deleted
  else if strict_eq_string (kv w !! "status") "ready" then ready
  else absent.

Definition payload_of (w : World) : jsval := kv w !! "result".
Definition storedAt_of (w : World) : jsval := kv w !! "storedAt".

(** What [retrieve] answers from a store that answers. *)
Definition answer (m : gmap string json) : Response :=
  if strict_eq_string (m !! "status") "deleted" then not_found_response
  else if negb (strict_eq_string (m !! "status") "ready") then pending_response
  else Response_json [ ("status", Some (JString "ready"));
                       ("result", m !! "result");
                       ("storedAt", m !! "storedAt") ] None.

(** The store after a successful [store] at time [t], and after a
    successful [acknowledge]. *)
Definition stored_kv (p : json) (t : Z) (m : gmap string json)
  : gmap string json :=
  <["storedAt" := JString (ISO.toISOString t)]>
    (<["status" := JString "ready"]> (<["result" := p]> m)).

Definition tombstoned_kv (m : gmap string json) : gmap string json :=
  delete "storedAt" (delete "result" (<["status" := JString "deleted"]> m)).

(** The status a run without store leaves behind. *)
Definition tombstone_if (acked : bool) : jsval :=
  if acked then Some (JString "deleted") else None.


(** ** The lifecycle of a record, event by event *)







(** The next [setAlarm] call succeeds. *)
Definition alarm_ok (w : World) : Prop := hd false (alarm_faults w) = false.

(** ** Sample worlds *)

(** 2023-11-14T22:13:20.000Z *)
Definition sample_now : Z := 1700000000000.

(** A key holding a result stored earlier, on a host whose clock moves
    on between readings and whose next [setAlarm] fails. *)
Definition sample_ready_world : World :=
  mkWorld
    (stored_kv (JString "old") 1699999000000 ∅)
    (Some (1699999000000 + 24 * 60 * 60 * 1000))
    []
    sample_now
    [5%N; 7%N]
    []
    [true].

(** A host whose next storage call fails. *)
Definition sample_broken_world : World :=
  mkWorld ∅ None [] sample_now [] [true] [].

(** A key holding a result, on a host whose storage takes the next
    write and fails the one after it. *)
Definition sample_flaky_world : World :=
  mkWorld
    (stored_kv (JString "old") 1699999000000 ∅)
    (Some (1699999000000 + 24 * 60 * 60 * 1000))
    []
    sample_now
    [5%N]
    [false; true]
    [].

(** A key holding a result, on a host that answers every call and
    whose clock moves on between readings. *)
Definition sample_steady_world : World :=
  mkWorld
    (stored_kv (JString "old") 1699999000000 ∅)
    (Some (1699999000000 + 24 * 60 * 60 * 1000))
    []
    sample_now
    [5%N; 7%N]
    []
    [].


(** The payload of scenario A: [{"foo":1}]. *)
Definition sample_payload : json := JObject [("foo", JNumber 1%float)].


(** ** Checks of the date format *)

Example toISOString_epoch :
  ISO.toISOString 0 = "1970-01-01T00:00:00.000Z".
Proof. reflexivity. Qed.

Example toISOString_2023 :
  ISO.toISOString 1700000000123 = "2023-11-14T22:13:20.123Z".
Proof. vm_compute. reflexivity. Qed.

Example toISOString_leap_day :
  ISO.toISOString 951782400000 = "2000-02-29T00:00:00.000Z".
Proof. vm_compute. reflexivity. Qed.

Example toISOString_before_epoch :
  ISO.toISOString (-1) = "1969-12-31T23:59:59.999Z".
Proof. vm_compute. reflexivity. Qed.

(** ** The scenarios of the lifecycle, run *)

Example scenario_store_then_poll :
  fst (AsyncResultDO.fetch get_request
         (run [EvStore (JsonText sample_payload)] (fresh_world sample_now)))
  = Fulfilled (ready_response sample_payload "2023-11-14T22:13:20.000Z").
Proof. vm_compute. reflexivity. Qed.

Example scenario_poll_unknown_key :
  fst (AsyncResultDO.fetch get_request (fresh_world sample_now))
  = Fulfilled pending_response.
Proof. vm_compute. reflexivity. Qed.

Example scenario_store_acknowledge_poll :
  fst (AsyncResultDO.fetch delete_request
         (run [EvStore (JsonText sample_payload)] (fresh_world sample_now)))
  = Fulfilled (new_Response "deleted" 200)
  /\ fst (AsyncResultDO.fetch get_request
            (run [EvStore (JsonText sample_payload); EvAcknowledge]
                 (fresh_world sample_now)))
     = Fulfilled not_found_response.
Proof. split; vm_compute; reflexivity. Qed.

Example scenario_store_expire_poll :
  fst (AsyncResultDO.fetch get_request
         (run [EvStore (JsonText sample_payload); EvTimer]
              (fresh_world sample_now)))
  = Fulfilled pending_response.
Proof. vm_compute. reflexivity. Qed.

Example scenario_alarm_deadlines :
  pending_alarm (run [EvStore (JsonText sample_payload)] (fresh_world sample_now))
  = Some (sample_now + 86400000)
  /\ pending_alarm
       (run [EvStore (JsonText sample_payload); EvAcknowledge]
            (fresh_world sample_now))
     = Some (sample_now + 3600000)
  /\ pending_alarm
       (run [EvStore (JsonText sample_payload); EvTimer] (fresh_world sample_now))
     = None.
Proof. repeat split; vm_compute; reflexivity. Qed.

Example scenario_other_verb :
  AsyncResultDO.fetch (mkRequest "POST" (JsonText sample_payload))
                      (fresh_world sample_now)
  = (Fulfilled (new_Response "Method not allowed" 405), fresh_world sample_now).
Proof. reflexivity. Qed.

(** ** The methods on a storage that answers *)

Ltac open_world w H :=
  destruct w as [m al out now ts sf af];
  unfold healthy in H; simpl in H; subst sf.

Ltac run_method :=
  unfold AsyncResultDO.fetch, AsyncResultDO.store, AsyncResultDO.retrieve,
    AsyncResultDO.acknowledge, AsyncResultDO.alarm, timer_fire,
    await, try_await;
  simpl.

Lemma fetch_put request :
  method request = "PUT" ->
  AsyncResultDO.fetch request = AsyncResultDO.store request.
Proof. intros E. unfold AsyncResultDO.fetch. rewrite E. reflexivity. Qed.

Lemma fetch_get request :
  method request = "GET" ->
  AsyncResultDO.fetch request = AsyncResultDO.retrieve.
Proof. intros E. unfold AsyncResultDO.fetch. rewrite E. reflexivity. Qed.

Lemma fetch_delete request :
  method request = "DELETE" ->
  AsyncResultDO.fetch request = AsyncResultDO.acknowledge.
Proof. intros E. unfold AsyncResultDO.fetch. rewrite E. reflexivity. Qed.

Lemma store_healthy p w :
  healthy w ->
  exists t w',
    AsyncResultDO.fetch (put_request (JsonText p)) w
      = (Fulfilled (new_Response "stored" 201), w')
    /\ clock w <= t <= clock w'
    /\ kv w' = stored_kv p t (kv w)
    /\ healthy w'.
Proof.
  intros H. open_world w H. run_method.
  destruct ts as [|d [|d' ts]], af as [|[] af]; simpl;
    eexists; eexists; (split; [reflexivity|]); simpl;
    (split; [|split; reflexivity]); lia.
Qed.

Lemma store_not_json w :
  AsyncResultDO.fetch (put_request NotJson) w = (Rejected SyntaxError, w).
Proof. reflexivity. Qed.

Lemma retrieve_healthy w :
  healthy w ->
  AsyncResultDO.fetch get_request w = (Fulfilled (answer (kv w)), w).
Proof.
  intros H. open_world w H. run_method. unfold answer.
  unfold storage_get, storage_call. simpl.
  destruct (strict_eq_string (m !! "status") "deleted"); [reflexivity|].
  destruct (strict_eq_string (m !! "status") "ready"); reflexivity.
Qed.

Lemma acknowledge_healthy w :
  healthy w ->
  exists w',
    AsyncResultDO.fetch delete_request w
      = (Fulfilled (new_Response "deleted" 200), w')
    /\ kv w' = tombstoned_kv (kv w)
    /\ (pending_alarm w' = pending_alarm w
        \/ exists t, clock w <= t /\ pending_alarm w' = Some (t + 60 * 60 * 1000))
    /\ healthy w'.
Proof.
  intros H. open_world w H. run_method.
  destruct ts as [|d ts], af as [|[] af]; simpl;
    eexists; (split; [reflexivity|]); simpl;
    (split; [reflexivity|]); (split; [|reflexivity]);
    first [ by left | right; eexists; split; [|reflexivity]; lia ].
Qed.

Lemma alarm_healthy w :
  healthy w ->
  exists w',
    AsyncResultDO.alarm w = (Fulfilled tt, w')
    /\ kv w' = ∅ /\ pending_alarm w' = pending_alarm w /\ healthy w'.
Proof.
  intros H. open_world w H. run_method. eexists. repeat split; reflexivity.
Qed.

(** ** Single events on a storage that answers *)

Lemma stored_kv_status p t m :
  stored_kv p t m !! "status" = Some (JString "ready").
Proof. unfold stored_kv. by simplify_map_eq. Qed.

Lemma stored_kv_result p t m : stored_kv p t m !! "result" = Some p.
Proof. unfold stored_kv. by simplify_map_eq. Qed.

Lemma stored_kv_storedAt p t m :
  stored_kv p t m !! "storedAt" = Some (JString (ISO.toISOString t)).
Proof. unfold stored_kv. by simplify_map_eq. Qed.

Lemma tombstoned_kv_status m :
  tombstoned_kv m !! "status" = Some (JString "deleted").
Proof. unfold tombstoned_kv. by simplify_map_eq. Qed.

Lemma tombstoned_kv_result m : tombstoned_kv m !! "result" = None.
Proof. unfold tombstoned_kv. by simplify_map_eq. Qed.

Lemma tombstoned_kv_storedAt m : tombstoned_kv m !! "storedAt" = None.
Proof. unfold tombstoned_kv. by simplify_map_eq. Qed.

Lemma answer_stored p t m :
  answer (stored_kv p t m)
  = ready_response (JSON_stringify p) (ISO.toISOString t).
Proof.
  unfold answer.
  rewrite stored_kv_status, stored_kv_result, stored_kv_storedAt.
  reflexivity.
Qed.

Lemma answer_deleted m :
  m !! "status" = Some (JString "deleted") -> answer m = not_found_response.
Proof. intros E. unfold answer. rewrite E. reflexivity. Qed.

Lemma answer_absent m :
  m !! "status" = None -> answer m = pending_response.
Proof. intros E. unfold answer. rewrite E. reflexivity. Qed.

Lemma deliver_poll w : healthy w -> deliver EvPoll w = w.
Proof. intros H. simpl. by rewrite retrieve_healthy. Qed.



Lemma deliver_acknowledge w :
  healthy w ->
  healthy (deliver EvAcknowledge w)
  /\ kv (deliver EvAcknowledge w) = tombstoned_kv (kv w).
Proof.
  intros H. destruct (acknowledge_healthy w H) as (w' & E & K & _ & H').
  simpl. rewrite E. by simpl.
Qed.

Lemma deliver_timer w :
  healthy w -> healthy (deliver EvTimer w) /\ kv (deliver EvTimer w) = ∅.
Proof.
  intros H.
  assert (Hc : healthy (with_alarm None w)) by exact H.
  destruct (alarm_healthy _ Hc) as (w' & E & K & _ & H').
  simpl. unfold timer_fire. rewrite E. by simpl.
Qed.

(** ** Runs without a store *)

Lemma run_without_store es :
  forall w acked,
    healthy w ->
    kv w !! "status" = tombstone_if acked ->
    forallb (fun e => negb (is_store e)) es = true ->
    healthy (run es w)
    /\ kv (run es w) !! "status" = tombstone_if (acked_since_purge acked es).
Proof.
  induction es as [|e es IH]; intros w acked H S N; [by split|].
  simpl in N. apply andb_prop in N as [Ne N].
  unfold run, acked_since_purge. simpl. fold (run es (deliver e w)).
  destruct e as [b| | |]; [discriminate Ne| | |].
  - rewrite (deliver_poll w H). by apply IH.
  - destruct (deliver_acknowledge w H) as [H' K].
    apply (IH _ true); [assumption| |assumption].
    rewrite K. apply tombstoned_kv_status.
  - destruct (deliver_timer w H) as [H' K].
    apply (IH _ false); [assumption| |assumption].
    rewrite K. apply lookup_empty.
Qed.

Lemma acked_stays es :
  forallb (fun e => negb (is_timer e)) es = true ->
  acked_since_purge true es = true.
Proof.
  induction es as [|e es IH]; [reflexivity|].
  simpl. intros N. apply andb_prop in N as [Ne N].
  unfold acked_since_purge. simpl.
  destruct e; try discriminate Ne; by apply IH.
Qed.

(** ** Round trip *)

(** A payload without infinite numbers, NaN or negative zero is one
    that JSON can carry. *)
Lemma json_plain_serializable :
  forall v, json_plain v = true -> json_serializable v.
Proof.
  unfold json_serializable.
  fix IH 1. intros [|b|x|s|items|fields]; simpl; intros H; try reflexivity.
  - unfold stringify_number. destruct (classify x); try discriminate H;
      reflexivity.
  - f_equal. induction items as [|i items IHl]; [reflexivity|].
    simpl in H. apply andb_prop in H as [H1 H2].
    simpl. by rewrite (IH i H1), (IHl H2).
  - f_equal. induction fields as [|[k m] fields IHl]; [reflexivity|].
    simpl in H. apply andb_prop in H as [H1 H2].
    simpl. by rewrite (IH m H1), (IHl H2).
Qed.

(** Whatever the payload, the poll after a store returns it as
    [JSON.stringify] writes it. *)
Lemma store_then_poll_stringified (p : json) (w : World) :
  healthy w ->
  exists t w1,
    AsyncResultDO.fetch (put_request (JsonText p)) w
      = (Fulfilled (new_Response "stored" 201), w1)
    /\ clock w <= t <= clock w1
    /\ kv w1 = stored_kv p t (kv w)
    /\ AsyncResultDO.fetch get_request w1
      = (Fulfilled (ready_response (JSON_stringify p) (ISO.toISOString t)), w1).
Proof.
  intros H. destruct (store_healthy p w H) as (t & w1 & E & T & K & H1).
  exists t, w1. split; [exact E|]. split; [exact T|]. split; [exact K|].
  rewrite (retrieve_healthy w1 H1), K. by rewrite answer_stored.
Qed.

(** The body [1e400] parses to infinity, is stored as such, and comes
    back from the poll as [null]; [-0] comes back as [0]. *)
Example poll_writes_infinity_as_null :
  payload_of (run [EvStore (JsonText (JNumber infinity))] (fresh_world sample_now))
  = Some (JNumber infinity)
  /\ fst (AsyncResultDO.fetch get_request
            (run [EvStore (JsonText (JNumber infinity))] (fresh_world sample_now)))
     = Fulfilled (ready_response JNull "2023-11-14T22:13:20.000Z")
  /\ fst (AsyncResultDO.fetch get_request
            (run [EvStore (JsonText (JArray [JNumber neg_zero]))]
                 (fresh_world sample_now)))
     = Fulfilled (ready_response (JArray [JNumber zero])
                                 "2023-11-14T22:13:20.000Z").
Proof. repeat split; vm_compute; reflexivity. Qed.

(** C1.  For every payload [p] that JSON can carry (serialising it
    gives it back) and every prior content of the record, on a storage
    that answers, [store(p)] answers 201 "stored" and the poll that
    follows answers 200 with status "ready", a result equal to [p] and
    the [storedAt] that this store wrote: the ISO form of a clock
    reading [t] taken during the store call, hence not before the time
    at which the call started. *)
Theorem store_then_poll_round_trip (p : json) (w : World) :
  healthy w ->
  json_serializable p ->
  exists t w1 w2,
    AsyncResultDO.fetch (put_request (JsonText p)) w
      = (Fulfilled (new_Response "stored" 201), w1)
    /\ clock w <= t <= clock w1
    /\ storedAt_of w1 = Some (JString (ISO.toISOString t))
    /\ AsyncResultDO.fetch get_request w1
      = (Fulfilled (ready_response p (ISO.toISOString t)), w2).
Proof.
  intros H J.
  destruct (store_then_poll_stringified p w H) as (t & w1 & E & T & K & G).
  exists t, w1, w1. split; [exact E|]. split; [exact T|].
  unfold storedAt_of. rewrite K. split; [apply stored_kv_storedAt|].
  rewrite G. unfold json_serializable in J. by rewrite J.
Qed.

Lemma store_then_poll_round_trip_witness :
  exists t w1 w2,
    AsyncResultDO.fetch (put_request (JsonText sample_payload)) sample_ready_world
      = (Fulfilled (new_Response "stored" 201), w1)
    /\ clock sample_ready_world <= t <= clock w1
    /\ storedAt_of w1 = Some (JString (ISO.toISOString t))
    /\ AsyncResultDO.fetch get_request w1
      = (Fulfilled (ready_response sample_payload (ISO.toISOString t)), w2).
Proof.
  apply (store_then_poll_round_trip sample_payload sample_ready_world);
    reflexivity.
Defined.

(** ** Failures at the request boundary *)

(** [fetch] never answers 500: its [catch] guards only the calls that
    hand back the methods' promises, and those calls do not throw. *)
Lemma fetch_never_answers_500 (request : Request) (w : World) :
  match fst (AsyncResultDO.fetch request w) with
  | Fulfilled r => resp_status r <> 500
  | Rejected _ => True
  end.
Proof.
  unfold AsyncResultDO.fetch.
  destruct w as [m al out now ts sf af].
  destruct (String.eqb (method request) "PUT"); simpl.
  - destruct request as [mt [v|]]; [|exact I].
    destruct ts as [|d [|d' ts]], sf as [|[] sf], af as [|[] af];
      run_method; try exact I; discriminate.
  - destruct (String.eqb (method request) "GET"); simpl.
    + run_method. unfold storage_get, storage_call; simpl.
      destruct sf as [|[] [|[] [|[] sf]]]; simpl; try exact I.
      all: destruct (strict_eq_string (m !! "status") "deleted"); simpl;
        [discriminate|].
      all: destruct (strict_eq_string (m !! "status") "ready"); simpl;
        try exact I; discriminate.
    + destruct (String.eqb (method request) "DELETE"); simpl; [|discriminate].
      destruct ts as [|d ts], sf as [|[] [|[] sf]], af as [|[] af];
        run_method; try exact I; discriminate.
Qed.

(** Whatever the record holds, the first storage call failing makes
    the whole request reject. *)
Lemma first_storage_fault_escapes (p : json) (w : World) (later : list bool) :
  storage_faults w = true :: later ->
  fst (AsyncResultDO.fetch (put_request (JsonText p)) w) = Rejected StorageError
  /\ fst (AsyncResultDO.fetch get_request w) = Rejected StorageError
  /\ fst (AsyncResultDO.fetch delete_request w) = Rejected StorageError.
Proof.
  intros F. destruct w as [m al out now ts sf af]. simpl in F. subst sf.
  repeat split; run_method; destruct ts; reflexivity.
Qed.

(** Had the method's promise been awaited inside the [try] block, the
    handler would have run and answered 500. *)
Remark awaited_store_would_answer_500 (w : World) :
  fst (try_await
         (AsyncResultDO.store (put_request NotJson))
         (fun error =>
            console_write ("[AsyncResultDO] Error: " ++ error_name error) ;;;
            resolve (new_Response "Internal error" 500))
         w)
  = Fulfilled (new_Response "Internal error" 500).
Proof. reflexivity. Qed.

(** C2.  The failure of an operation leaves [fetch] as a rejection, not
    as a 500 response: a PUT whose body is not JSON rejects with the
    parser's error, and a PUT, GET or DELETE whose first storage call
    fails rejects with the storage's error. *)
Theorem fetch_rejects_when_operation_fails :
  AsyncResultDO.fetch (put_request NotJson) (fresh_world sample_now)
    = (Rejected SyntaxError, fresh_world sample_now)
  /\ fst (AsyncResultDO.fetch (put_request (JsonText sample_payload))
                              sample_broken_world)
     = Rejected StorageError
  /\ fst (AsyncResultDO.fetch get_request sample_broken_world)
     = Rejected StorageError
  /\ fst (AsyncResultDO.fetch delete_request sample_broken_world)
     = Rejected StorageError.
Proof. repeat split; reflexivity. Qed.

(** ** Tombstones *)

(** C3.  After an acknowledge (on a ready record, and on any other), on
    a storage that answers, a poll that follows any number of further
    polls and acknowledges, with no store and no alarm in between,
    answers 404 "Result deleted". *)
Theorem poll_after_acknowledge_is_not_found (w : World) (es : list Event) :
  healthy w ->
  forallb (fun e => negb (is_store e) && negb (is_timer e)) es = true ->
  fst (AsyncResultDO.fetch get_request (run es (deliver EvAcknowledge w)))
    = Fulfilled not_found_response
  /\ status_of (run es (deliver EvAcknowledge w)) = deleted.
Proof.
  intros H N.
  destruct (deliver_acknowledge w H) as [H1 K].
  assert (Ns : forallb (fun e => negb (is_store e)) es = true).
  { rewrite forallb_forall in N |- *. intros e I.
    specialize (N e I). by apply andb_prop in N as [-> _]. }
  assert (Nt : forallb (fun e => negb (is_timer e)) es = true).
  { rewrite forallb_forall in N |- *. intros e I.
    specialize (N e I). by apply andb_prop in N as [_ ->]. }
  destruct (run_without_store es _ true H1) as [H2 S]; [|exact Ns|].
  { rewrite K. apply tombstoned_kv_status. }
  rewrite (acked_stays es Nt) in S. simpl in S.
  rewrite (retrieve_healthy _ H2). simpl.
  rewrite (answer_deleted _ S). split; [reflexivity|].
  unfold status_of. by rewrite S.
Qed.

Lemma poll_after_acknowledge_is_not_found_witness :
  fst (AsyncResultDO.fetch get_request
         (run [EvPoll; EvAcknowledge; EvPoll]
              (deliver EvAcknowledge sample_ready_world)))
    = Fulfilled not_found_response
  /\ status_of (run [EvPoll; EvAcknowledge; EvPoll]
                    (deliver EvAcknowledge sample_ready_world)) = deleted.
Proof.
  apply (poll_after_acknowledge_is_not_found
           sample_ready_world [EvPoll; EvAcknowledge; EvPoll]);
    reflexivity.
Defined.

(** ** Keys that were never stored *)

(** C4 fails as stated: on a fresh key, with no store ever, one
    acknowledge makes the next poll answer 404 "Result deleted". *)
Lemma poll_after_lone_acknowledge_is_not_pending :
  forallb (fun e => negb (is_store e)) [EvAcknowledge] = true
  /\ fst (AsyncResultDO.fetch get_request
            (run [EvAcknowledge] (fresh_world sample_now)))
     = Fulfilled not_found_response
  /\ not_found_response <> pending_response.
Proof.
  split; [reflexivity|]. split; [vm_compute; reflexivity | discriminate].
Qed.

(** C4, amended.  On a key that starts absent, on a storage that
    answers, after any events that include no store, a poll answers
    "pending" (202) unless an acknowledge was delivered after the last
    alarm, in which case it answers 404 "Result deleted"; it does not
    answer "ready". *)
Theorem poll_without_store (w : World) (es : list Event) :
  kv w = ∅ ->
  healthy w ->
  forallb (fun e => negb (is_store e)) es = true ->
  fst (AsyncResultDO.fetch get_request (run es w))
    = Fulfilled (if acked_since_purge false es
                 then not_found_response else pending_response)
  /\ status_of (run es w) <> ready.
Proof.
  intros E H N.
  destruct (run_without_store es w false H) as [H' S]; [|exact N|].
  { rewrite E. apply lookup_empty. }
  rewrite (retrieve_healthy _ H'). simpl.
  unfold status_of. rewrite S.
  destruct (acked_since_purge false es); simpl in *.
  - by rewrite (answer_deleted _ S).
  - by rewrite (answer_absent _ S).
Qed.

Lemma poll_without_store_witness :
  fst (AsyncResultDO.fetch get_request
         (run [EvPoll; EvAcknowledge; EvTimer; EvPoll] (fresh_world sample_now)))
    = Fulfilled pending_response
  /\ status_of (run [EvPoll; EvAcknowledge; EvTimer; EvPoll]
                    (fresh_world sample_now)) <> ready.
Proof.
  apply (poll_without_store (fresh_world sample_now)
           [EvPoll; EvAcknowledge; EvTimer; EvPoll]);
    reflexivity.
Defined.

(** ** The data model's view of the store *)

Lemma status_of_ready_iff w :
  status_of w = ready <-> kv w !! "status" = Some (JString "ready").
Proof.
  unfold status_of, strict_eq_string.
  destruct (kv w !! "status") as [[| | |s| |]|]; try (split; discriminate).
  destruct (String.eqb_spec s "deleted") as [->|Nd]; [split; discriminate|].
  destruct (String.eqb_spec s "ready") as [->|Nr]; [done|].
  split; [discriminate|]. intros E. by injection E.
Qed.

Lemma status_of_stored p t w m :
  kv w = stored_kv p t m -> status_of w = ready.
Proof. intros K. apply status_of_ready_iff. rewrite K. apply stored_kv_status. Qed.

Lemma status_of_tombstoned w m :
  kv w = tombstoned_kv m -> status_of w = deleted.
Proof. intros K. unfold status_of. by rewrite K, tombstoned_kv_status. Qed.

Lemma status_of_empty w : kv w = ∅ -> status_of w = absent.
Proof. intros K. unfold status_of. by rewrite K, lookup_empty. Qed.

Lemma tombstoned_kv_again m : tombstoned_kv (tombstoned_kv m) = tombstoned_kv m.
Proof.
  apply map_eq. intros k. unfold tombstoned_kv.
  destruct (decide (k = "storedAt")) as [->|]; [by simplify_map_eq|].
  destruct (decide (k = "result")) as [->|]; [by simplify_map_eq|].
  destruct (decide (k = "status")) as [->|]; by simplify_map_eq.
Qed.

(** ** Purge *)

(** C5.  From every content of the record, on a storage that answers,
    the alarm handler empties the store, which puts the record back to
    absent with no payload and no timestamp; the poll that follows
    answers "pending" (202), as it does on a key that was never
    addressed. *)
Theorem alarm_returns_record_to_absent (w : World) :
  healthy w ->
  exists w1 w2,
    AsyncResultDO.alarm w = (Fulfilled tt, w1)
    /\ kv w1 = ∅
    /\ status_of w1 = absent
    /\ payload_of w1 = None
    /\ storedAt_of w1 = None
    /\ AsyncResultDO.fetch get_request w1 = (Fulfilled pending_response, w2)
    /\ fst (AsyncResultDO.fetch get_request (fresh_world (clock w1)))
       = Fulfilled pending_response.
Proof.
  intros H. destruct (alarm_healthy w H) as (w1 & E & K & _ & H1).
  exists w1, w1. split; [exact E|]. split; [exact K|].
  split; [by apply status_of_empty|].
  unfold payload_of, storedAt_of. rewrite K, !lookup_empty.
  split; [reflexivity|]. split; [reflexivity|].
  rewrite (retrieve_healthy w1 H1), K. split; reflexivity.
Qed.

Lemma alarm_returns_record_to_absent_witness :
  exists w1 w2,
    AsyncResultDO.alarm sample_ready_world = (Fulfilled tt, w1)
    /\ kv w1 = ∅
    /\ status_of w1 = absent
    /\ payload_of w1 = None
    /\ storedAt_of w1 = None
    /\ AsyncResultDO.fetch get_request w1 = (Fulfilled pending_response, w2)
    /\ fst (AsyncResultDO.fetch get_request (fresh_world (clock w1)))
       = Fulfilled pending_response.
Proof.
  apply (alarm_returns_record_to_absent sample_ready_world). reflexivity.
Defined.

(** ** Acknowledge *)

(** C6.  From every content of the record, on a storage that answers,
    two acknowledges in a row both answer 200 "deleted"; the first
    leaves a tombstone with no payload and no timestamp, and the second
    leaves the store exactly as the first did.  Only the alarm can
    differ: the second call leaves it as it was or sets it to one hour
    after a clock reading of its own. *)
Theorem acknowledge_twice (w : World) :
  healthy w ->
  exists w1 w2,
    AsyncResultDO.fetch delete_request w
      = (Fulfilled (new_Response "deleted" 200), w1)
    /\ AsyncResultDO.fetch delete_request w1
      = (Fulfilled (new_Response "deleted" 200), w2)
    /\ status_of w1 = deleted
    /\ payload_of w1 = None
    /\ storedAt_of w1 = None
    /\ kv w2 = kv w1
    /\ (pending_alarm w2 = pending_alarm w1
        \/ exists t, clock w1 <= t
                     /\ pending_alarm w2 = Some (t + 60 * 60 * 1000)).
Proof.
  intros H.
  destruct (acknowledge_healthy w H) as (w1 & E1 & K1 & _ & H1).
  destruct (acknowledge_healthy w1 H1) as (w2 & E2 & K2 & A2 & H2).
  exists w1, w2. split; [exact E1|]. split; [exact E2|].
  split; [by eapply status_of_tombstoned|].
  unfold payload_of, storedAt_of.
  rewrite K1, tombstoned_kv_result, tombstoned_kv_storedAt.
  split; [reflexivity|]. split; [reflexivity|].
  split; [|exact A2]. rewrite K2, K1. apply tombstoned_kv_again.
Qed.

Lemma acknowledge_twice_witness :
  exists w1 w2,
    AsyncResultDO.fetch delete_request sample_ready_world
      = (Fulfilled (new_Response "deleted" 200), w1)
    /\ AsyncResultDO.fetch delete_request w1
      = (Fulfilled (new_Response "deleted" 200), w2)
    /\ status_of w1 = deleted
    /\ payload_of w1 = None
    /\ storedAt_of w1 = None
    /\ kv w2 = kv w1
    /\ (pending_alarm w2 = pending_alarm w1
        \/ exists t, clock w1 <= t
                     /\ pending_alarm w2 = Some (t + 60 * 60 * 1000)).
Proof. apply (acknowledge_twice sample_ready_world). reflexivity. Defined.

(** C10.  On a storage that answers, acknowledge answers 200 "deleted"
    whatever the record holds, so the answers from any two contents of
    the record are equal. *)
Theorem acknowledge_answer_ignores_record (w w' : World) :
  healthy w ->
  healthy w' ->
  fst (AsyncResultDO.fetch delete_request w)
    = Fulfilled (new_Response "deleted" 200)
  /\ fst (AsyncResultDO.fetch delete_request w')
     = fst (AsyncResultDO.fetch delete_request w).
Proof.
  intros H H'.
  destruct (acknowledge_healthy w H) as (w1 & E & _).
  destruct (acknowledge_healthy w' H') as (w1' & E' & _).
  rewrite E, E'. by split.
Qed.

Lemma acknowledge_answer_ignores_record_witness :
  fst (AsyncResultDO.fetch delete_request sample_ready_world)
    = Fulfilled (new_Response "deleted" 200)
  /\ fst (AsyncResultDO.fetch delete_request (fresh_world sample_now))
     = fst (AsyncResultDO.fetch delete_request sample_ready_world).
Proof.
  apply (acknowledge_answer_ignores_record
           sample_ready_world (fresh_world sample_now));
    reflexivity.
Defined.

(** ** A timer that cannot be set *)

(** C7.  When [setAlarm] fails, on a storage that answers: store still
    answers 201 "stored", leaves the alarm as it was, and leaves the
    record ready with the new payload, which the next poll returns as
    [JSON.stringify] writes it (the payload itself when JSON can carry
    it); acknowledge still answers 200 "deleted", leaves the alarm as
    it was, and leaves the tombstone. *)
Theorem alarm_failure_is_swallowed (p : json) (w : World) (later : list bool) :
  healthy w ->
  alarm_faults w = true :: later ->
  (exists t w1 w2,
     AsyncResultDO.fetch (put_request (JsonText p)) w
       = (Fulfilled (new_Response "stored" 201), w1)
     /\ pending_alarm w1 = pending_alarm w
     /\ status_of w1 = ready
     /\ payload_of w1 = Some p
     /\ AsyncResultDO.fetch get_request w1
       = (Fulfilled (ready_response (JSON_stringify p) (ISO.toISOString t)),
          w2)
     /\ (json_serializable p ->
         AsyncResultDO.fetch get_request w1
           = (Fulfilled (ready_response p (ISO.toISOString t)), w2)))
  /\ (exists w3,
        AsyncResultDO.fetch delete_request w
          = (Fulfilled (new_Response "deleted" 200), w3)
        /\ pending_alarm w3 = pending_alarm w
        /\ status_of w3 = deleted
        /\ payload_of w3 = None).
Proof.
  intros H F. split.
  - destruct (store_healthy p w H) as (t & w1 & E & _ & K & H1).
    exists t, w1, w1. split; [exact E|].
    split.
    { open_world w H. simpl in F. subst af. revert E. run_method.
      destruct ts as [|d [|d' ts]]; simpl; intros E;
        injection E as <-; reflexivity. }
    split; [by eapply status_of_stored|].
    unfold payload_of. rewrite K. split; [apply stored_kv_result|].
    rewrite (retrieve_healthy w1 H1), K, answer_stored.
    split; [reflexivity|]. intros J. unfold json_serializable in J.
    by rewrite J.
  - destruct (acknowledge_healthy w H) as (w3 & E & K & _ & H3).
    exists w3. split; [exact E|].
    split.
    { open_world w H. simpl in F. subst af. revert E. run_method.
      destruct ts as [|d ts]; simpl; intros E;
        injection E as <-; reflexivity. }
    split; [by eapply status_of_tombstoned|].
    unfold payload_of. rewrite K. apply tombstoned_kv_result.
Qed.

Lemma alarm_failure_is_swallowed_witness :
  (exists t w1 w2,
     AsyncResultDO.fetch (put_request (JsonText sample_payload)) sample_ready_world
       = (Fulfilled (new_Response "stored" 201), w1)
     /\ pending_alarm w1 = pending_alarm sample_ready_world
     /\ status_of w1 = ready
     /\ payload_of w1 = Some sample_payload
     /\ AsyncResultDO.fetch get_request w1
       = (Fulfilled
            (ready_response (JSON_stringify sample_payload) (ISO.toISOString t)),
          w2)
     /\ (json_serializable sample_payload ->
         AsyncResultDO.fetch get_request w1
           = (Fulfilled (ready_response sample_payload (ISO.toISOString t)),
              w2)))
  /\ (exists w3,
        AsyncResultDO.fetch delete_request sample_ready_world
          = (Fulfilled (new_Response "deleted" 200), w3)
        /\ pending_alarm w3 = pending_alarm sample_ready_world
        /\ status_of w3 = deleted
        /\ payload_of w3 = None).
Proof.
  apply (alarm_failure_is_swallowed sample_payload sample_ready_world []);
    reflexivity.
Defined.

(** ** Polling reads only *)

Lemma retrieve_frame w :
  kv (snd (AsyncResultDO.retrieve w)) = kv w
  /\ pending_alarm (snd (AsyncResultDO.retrieve w)) = pending_alarm w.
Proof.
  destruct w as [m al out now ts sf af]. run_method.
  unfold storage_get, storage_call. simpl.
  destruct sf as [|[] [|[] [|[] sf]]]; simpl; try (split; reflexivity).
  all: destruct (strict_eq_string (m !! "status") "deleted"); simpl;
    [split; reflexivity|].
  all: destruct (strict_eq_string (m !! "status") "ready"); simpl;
    split; reflexivity.
Qed.

Lemma run_polls n w : healthy w -> run (repeat EvPoll n) w = w.
Proof.
  intros H. induction n as [|n IH]; [reflexivity|].
  change (run (repeat EvPoll (S n)) w)
    with (run (repeat EvPoll n) (deliver EvPoll w)).
  rewrite (deliver_poll w H). exact IH.
Qed.

(** C8.  A poll leaves the store (status, payload, storedAt) and the
    pending alarm as they were, whatever the record holds and whether
    or not the storage answers; on a storage that answers, a poll after
    any number of polls gives the answer of the first and leaves the
    world as it found it. *)
Theorem poll_is_read_only (w : World) (n : nat) :
  kv (snd (AsyncResultDO.fetch get_request w)) = kv w
  /\ pending_alarm (snd (AsyncResultDO.fetch get_request w)) = pending_alarm w
  /\ (healthy w ->
      AsyncResultDO.fetch get_request (run (repeat EvPoll n) w)
        = AsyncResultDO.fetch get_request w
      /\ snd (AsyncResultDO.fetch get_request w) = w).
Proof.
  rewrite (fetch_get get_request eq_refl).
  destruct (retrieve_frame w) as [K A].
  split; [exact K|]. split; [exact A|].
  intros H. rewrite (run_polls n w H). split; [reflexivity|].
  rewrite <- (fetch_get get_request eq_refl).
  by rewrite (retrieve_healthy w H).
Qed.

Lemma poll_is_read_only_witness :
  kv (snd (AsyncResultDO.fetch get_request sample_ready_world))
    = kv sample_ready_world
  /\ pending_alarm (snd (AsyncResultDO.fetch get_request sample_ready_world))
     = pending_alarm sample_ready_world
  /\ AsyncResultDO.fetch get_request (run (repeat EvPoll 3) sample_ready_world)
     = AsyncResultDO.fetch get_request sample_ready_world
  /\ snd (AsyncResultDO.fetch get_request sample_ready_world)
     = sample_ready_world.
Proof.
  destruct (poll_is_read_only sample_ready_world 3) as (K & A & R).
  split; [exact K|]. split; [exact A|]. apply R. reflexivity.
Defined.

(** ** The payload invariant *)



(** * Further properties of the class *)

(** ** Other verbs *)

(** X1.  A request whose method is not exactly "PUT", "GET" or "DELETE"
    is answered 405 "Method not allowed" and changes nothing: neither
    the store, nor the alarm, nor the console, whatever the body and
    whether or not the storage answers. *)
Theorem other_verbs_are_refused (request : Request) (w : World) :
  method request <> "PUT" ->
  method request <> "GET" ->
  method request <> "DELETE" ->
  AsyncResultDO.fetch request w
    = (Fulfilled (new_Response "Method not allowed" 405), w).
Proof.
  intros Np Ng Nd. unfold AsyncResultDO.fetch.
  apply String.eqb_neq in Np, Ng, Nd. rewrite Np, Ng, Nd. reflexivity.
Qed.

Lemma other_verbs_are_refused_witness :
  AsyncResultDO.fetch (mkRequest "put" (JsonText sample_payload))
                      sample_broken_world
    = (Fulfilled (new_Response "Method not allowed" 405), sample_broken_world).
Proof.
  apply (other_verbs_are_refused
           (mkRequest "put" (JsonText sample_payload)) sample_broken_world);
    discriminate.
Defined.

(** ** A store that fails *)

(** X2.  A PUT that rejects has written nothing: the store and the
    alarm are as before, and the error is the parser's or the
    storage's, never the alarm's. *)
Theorem failed_store_changes_nothing (b : RequestBody) (w : World) (e : Error) :
  fst (AsyncResultDO.fetch (put_request b) w) = Rejected e ->
  kv (snd (AsyncResultDO.fetch (put_request b) w)) = kv w
  /\ pending_alarm (snd (AsyncResultDO.fetch (put_request b) w))
     = pending_alarm w
  /\ (e = SyntaxError \/ e = StorageError).
Proof.
  destruct b as [p|]; [|intros E; injection E as <-; by auto].
  destruct w as [m al out now ts sf af].
  destruct ts as [|d [|d' ts]], sf as [|[] sf], af as [|[] af];
    run_method; intros E; try discriminate E;
    injection E as <-; by auto.
Qed.

Lemma failed_store_changes_nothing_witness :
  kv (snd (AsyncResultDO.fetch (put_request (JsonText sample_payload))
                               sample_broken_world))
    = kv sample_broken_world
  /\ pending_alarm
       (snd (AsyncResultDO.fetch (put_request (JsonText sample_payload))
                                 sample_broken_world))
     = pending_alarm sample_broken_world
  /\ (StorageError = SyntaxError \/ StorageError = StorageError).
Proof.
  apply (failed_store_changes_nothing
           (JsonText sample_payload) sample_broken_world StorageError).
  reflexivity.
Defined.

(** ** Deadlines *)

(** X3.  When the storage answers and [setAlarm] succeeds, store
    replaces whatever alarm was pending by one set 24 hours after a
    clock reading that is not before the reading written as storedAt. *)
Theorem store_sets_24h_alarm (p : json) (w : World) :
  healthy w ->
  alarm_ok w ->
  exists t t' w1,
    AsyncResultDO.fetch (put_request (JsonText p)) w
      = (Fulfilled (new_Response "stored" 201), w1)
    /\ clock w <= t <= t'
    /\ t' <= clock w1
    /\ storedAt_of w1 = Some (JString (ISO.toISOString t))
    /\ pending_alarm w1 = Some (t' + 24 * 60 * 60 * 1000).
Proof.
  intros H A. open_world w H. unfold alarm_ok in A. simpl in A.
  unfold storedAt_of. run_method.
  destruct ts as [|d [|d' ts]], af as [|[] af]; try discriminate A; simpl;
    eexists; eexists; eexists; (split; [reflexivity|]); simpl;
    (split; [|split; [|split; [apply lookup_insert_eq|reflexivity]]]); lia.
Qed.

Lemma store_sets_24h_alarm_witness :
  exists t t' w1,
    AsyncResultDO.fetch (put_request (JsonText sample_payload)) sample_steady_world
      = (Fulfilled (new_Response "stored" 201), w1)
    /\ clock sample_steady_world <= t <= t'
    /\ t' <= clock w1
    /\ storedAt_of w1 = Some (JString (ISO.toISOString t))
    /\ pending_alarm w1 = Some (t' + 24 * 60 * 60 * 1000).
Proof.
  apply (store_sets_24h_alarm sample_payload sample_steady_world);
    reflexivity.
Defined.

(** X4.  When the storage answers and [setAlarm] succeeds, acknowledge
    replaces whatever alarm was pending (the 24 hour one of a store
    included) by one set 1 hour after a clock reading of its own. *)
Theorem acknowledge_sets_1h_alarm (w : World) :
  healthy w ->
  alarm_ok w ->
  exists t w1,
    AsyncResultDO.fetch delete_request w
      = (Fulfilled (new_Response "deleted" 200), w1)
    /\ clock w <= t <= clock w1
    /\ pending_alarm w1 = Some (t + 60 * 60 * 1000).
Proof.
  intros H A. open_world w H. unfold alarm_ok in A. simpl in A.
  run_method.
  destruct ts as [|d ts], af as [|[] af]; try discriminate A; simpl;
    eexists; eexists; (split; [reflexivity|]); simpl;
    (split; [|reflexivity]); lia.
Qed.

Lemma acknowledge_sets_1h_alarm_witness :
  exists t w1,
    AsyncResultDO.fetch delete_request sample_steady_world
      = (Fulfilled (new_Response "deleted" 200), w1)
    /\ clock sample_steady_world <= t <= clock w1
    /\ pending_alarm w1 = Some (t + 60 * 60 * 1000).
Proof.
  apply (acknowledge_sets_1h_alarm sample_steady_world); reflexivity.
Defined.

(** ** An acknowledge that fails half way *)

(** X5.  Acknowledge writes the tombstone and deletes the payload in
    two storage calls.  When the first succeeds and the second fails,
    the request rejects with the storage's error, the alarm is left as
    it was, and the store keeps the payload and the timestamp under a
    status that is now "deleted": the next poll answers 404 "Result
    deleted" although the payload is still held. *)
Theorem half_acknowledge_leaves_payload (w : World) :
  storage_faults w = [false; true] ->
  exists w1,
    AsyncResultDO.fetch delete_request w = (Rejected StorageError, w1)
    /\ kv w1 = <["status" := JString "deleted"]> (kv w)
    /\ payload_of w1 = payload_of w
    /\ storedAt_of w1 = storedAt_of w
    /\ status_of w1 = deleted
    /\ pending_alarm w1 = pending_alarm w
    /\ AsyncResultDO.fetch get_request w1
       = (Fulfilled not_found_response, w1).
Proof.
  intros F. destruct w as [m al out now ts sf af]. simpl in F. subst sf.
  eexists. split; [reflexivity|]. simpl.
  split; [reflexivity|].
  unfold payload_of, storedAt_of, status_of. simpl.
  rewrite !lookup_insert_eq, !lookup_insert_ne by discriminate. simpl.
  repeat (split; [reflexivity|]).
  rewrite retrieve_healthy by reflexivity. simpl.
  by rewrite (answer_deleted _ (lookup_insert_eq _ _ _)).
Qed.

Lemma half_acknowledge_leaves_payload_witness :
  exists w1,
    AsyncResultDO.fetch delete_request sample_flaky_world
      = (Rejected StorageError, w1)
    /\ kv w1 = <["status" := JString "deleted"]> (kv sample_flaky_world)
    /\ payload_of w1 = payload_of sample_flaky_world
    /\ storedAt_of w1 = storedAt_of sample_flaky_world
    /\ status_of w1 = deleted
    /\ pending_alarm w1 = pending_alarm sample_flaky_world
    /\ AsyncResultDO.fetch get_request w1
       = (Fulfilled not_found_response, w1).
Proof. apply (half_acknowledge_leaves_payload sample_flaky_world). reflexivity. Defined.

(** ** What the store holds after a run *)









(** ** Every outcome of a request *)

Ltac pick_disjunct :=
  repeat (first [ reflexivity | left; reflexivity | right ]).

(** X7.  Whatever the request and the world, [fetch] writes nothing to
    the console; when it answers, the status is 200, 201, 202, 404 or
    405, hence not 500; when it rejects, the error is the parser's or
    the storage's, and a failure of [setAlarm] never shows. *)
Theorem fetch_outcomes (request : Request) (w : World) :
  console (snd (AsyncResultDO.fetch request w)) = console w
  /\ match fst (AsyncResultDO.fetch request w) with
     | Fulfilled r => In (resp_status r) [200; 201; 202; 404; 405]
     | Rejected e => e = SyntaxError \/ e = StorageError
     end.
Proof.
  unfold AsyncResultDO.fetch.
  destruct w as [m al out now ts sf af].
  destruct (String.eqb (method request) "PUT"); simpl.
  - destruct request as [mt [v|]]; [|split; [reflexivity|by left]].
    destruct ts as [|d [|d' ts]], sf as [|[] sf], af as [|[] af];
      run_method; (split; [reflexivity|]); pick_disjunct.
  - destruct (String.eqb (method request) "GET"); simpl.
    + run_method. unfold storage_get, storage_call; simpl.
      destruct sf as [|[] [|[] [|[] sf]]]; simpl;
        try (split; [reflexivity|]; pick_disjunct).
      all: destruct (strict_eq_string (m !! "status") "deleted"); simpl;
        [split; [reflexivity|]; pick_disjunct|].
      all: destruct (strict_eq_string (m !! "status") "ready"); simpl;
        (split; [reflexivity|]); pick_disjunct.
    + destruct (String.eqb (method request) "DELETE"); simpl;
        [|split; [reflexivity|]; pick_disjunct].
      destruct ts as [|d ts], sf as [|[] [|[] sf]], af as [|[] af];
        run_method; (split; [reflexivity|]); pick_disjunct.
Qed.

(** ** Ready answers on a storage that may fail *)







(** ** What an answer guarantees *)

(** X9.  Whatever fails on the host, a PUT that is answered at all is
    answered 201 "stored", its body was JSON, and the store then holds
    that payload under status "ready" with the timestamp of a clock
    reading [t] taken during the call; the alarm is the old one or is
    set 24 hours after a second reading [t'] taken during the call,
    not before the first. *)
Theorem answered_store_has_stored (b : RequestBody) (w : World) (r : Response) :
  fst (AsyncResultDO.fetch (put_request b) w) = Fulfilled r ->
  r = new_Response "stored" 201
  /\ exists p t,
       b = JsonText p
       /\ clock w <= t <= clock (snd (AsyncResultDO.fetch (put_request b) w))
       /\ kv (snd (AsyncResultDO.fetch (put_request b) w))
          = stored_kv p t (kv w)
       /\ (pending_alarm (snd (AsyncResultDO.fetch (put_request b) w))
           = pending_alarm w
           \/ exists t',
                t <= t' <= clock (snd (AsyncResultDO.fetch (put_request b) w))
                /\ pending_alarm (snd (AsyncResultDO.fetch (put_request b) w))
                   = Some (t' + 24 * 60 * 60 * 1000)).
Proof.
  destruct b as [p|]; [|discriminate].
  destruct w as [m al out now ts sf af].
  destruct ts as [|d [|d' ts]], sf as [|[] sf], af as [|[] af];
    run_method; intros E; try discriminate E;
    injection E as <-; (split; [reflexivity|]);
    eexists _, _; (split; [reflexivity|]);
    (split; [|split; [reflexivity|]]); try lia;
    first [ by left | right; eexists; split; [|reflexivity]; lia ].
Qed.

Lemma answered_store_has_stored_witness :
  new_Response "stored" 201 = new_Response "stored" 201
  /\ exists p t,
       JsonText sample_payload = JsonText p
       /\ clock sample_steady_world <= t
          <= clock (snd (AsyncResultDO.fetch
                           (put_request (JsonText sample_payload))
                           sample_steady_world))
       /\ kv (snd (AsyncResultDO.fetch (put_request (JsonText sample_payload))
                                       sample_steady_world))
          = stored_kv p t (kv sample_steady_world)
       /\ (pending_alarm
             (snd (AsyncResultDO.fetch (put_request (JsonText sample_payload))
                                       sample_steady_world))
           = pending_alarm sample_steady_world
           \/ exists t',
                t <= t'
                  <= clock (snd (AsyncResultDO.fetch
                                   (put_request (JsonText sample_payload))
                                   sample_steady_world))
                /\ pending_alarm
                     (snd (AsyncResultDO.fetch
                             (put_request (JsonText sample_payload))
                             sample_steady_world))
                   = Some (t' + 24 * 60 * 60 * 1000)).
Proof.
  apply (answered_store_has_stored
           (JsonText sample_payload) sample_steady_world
           (new_Response "stored" 201)).
  reflexivity.
Defined.

(** X10.  Whatever fails on the host, a DELETE that is answered at all
    is answered 200 "deleted", and the store then holds the tombstone
    and neither payload nor timestamp. *)
Theorem answered_acknowledge_has_tombstoned (w : World) (r : Response) :
  fst (AsyncResultDO.fetch delete_request w) = Fulfilled r ->
  r = new_Response "deleted" 200
  /\ kv (snd (AsyncResultDO.fetch delete_request w)) = tombstoned_kv (kv w)
  /\ status_of (snd (AsyncResultDO.fetch delete_request w)) = deleted
  /\ payload_of (snd (AsyncResultDO.fetch delete_request w)) = None
  /\ storedAt_of (snd (AsyncResultDO.fetch delete_request w)) = None.
Proof.
  intros E.
  assert (K : r = new_Response "deleted" 200
              /\ kv (snd (AsyncResultDO.fetch delete_request w))
                 = tombstoned_kv (kv w)).
  { revert E. destruct w as [m al out now ts sf af].
    destruct ts as [|d ts], sf as [|[] [|[] sf]], af as [|[] af];
      run_method; intros E; try discriminate E;
      injection E as <-; by split. }
  destruct K as [-> K]. split; [reflexivity|]. split; [exact K|].
  split; [by eapply status_of_tombstoned|].
  unfold payload_of, storedAt_of.
  by rewrite K, tombstoned_kv_result, tombstoned_kv_storedAt.
Qed.

Lemma answered_acknowledge_has_tombstoned_witness :
  new_Response "deleted" 200 = new_Response "deleted" 200
  /\ kv (snd (AsyncResultDO.fetch delete_request sample_ready_world))
     = tombstoned_kv (kv sample_ready_world)
  /\ status_of (snd (AsyncResultDO.fetch delete_request sample_ready_world))
     = deleted
  /\ payload_of (snd (AsyncResultDO.fetch delete_request sample_ready_world))
     = None
  /\ storedAt_of (snd (AsyncResultDO.fetch delete_request sample_ready_world))
     = None.
Proof.
  apply (answered_acknowledge_has_tombstoned
           sample_ready_world (new_Response "deleted" 200)).
  reflexivity.
Defined.

(** ** The payload invariant over runs *)






